(** * Recursive filters: [filters.py]

    A shallow embedding of the three filter classes of [filters.py]
    ([LP_first_order], [LP_second_order], [Moving_average]) and the
    properties their description states about them.

    Numbers.  The samples, coefficients and outputs are Python numbers
    combined with [+], [-], [*], [/], [math.tan] and [math.exp].  They are
    modelled by the real numbers of the Standard Library: the development
    is about the recursions as arithmetic, rounding and overflow are not
    modelled.  The one arithmetic operation of the code that can raise,
    the division [x/y] with [y == 0] ([ZeroDivisionError]), is modelled
    as raising.
    The window length and the cursor of the moving average are Python
    integers and are modelled in [Z].

    Objects.  A Python instance carries the attributes that have been
    assigned so far; reading one that was never assigned raises
    [AttributeError].  Each class is a record of optional attributes, a
    method is a computation over that record which either returns a value
    or raises, and in both cases leaves the record as the assignments made
    so far have shaped it. *)

From Stdlib Require Import Reals Lra Lia ZArith String List.
From stdpp Require Import base list.
Import ListNotations.

Local Open Scope R_scope.

(** ** Exceptions and the method monad *)

Inductive exn : Type :=
| AttributeError (name : string)
| ZeroDivisionError
| IndexError.

Inductive outcome (A : Type) : Type :=
| Returns (a : A)
| Raises (e : exn).
Arguments Returns {A} a.
Arguments Raises {A} e.

(** A method body run on [self]: what it returns or raises, and [self]
    afterwards.  Assignments made before a [raise] stay. *)
Definition M (S A : Type) : Type := S -> outcome A * S.

Definition ret {S A} (a : A) : M S A := fun self => (Returns a, self).

Definition raise {S A} (e : exn) : M S A := fun self => (Raises e, self).

Definition bind {S A B} (m : M S A) (k : A -> M S B) : M S B :=
  fun self =>
    match m self with
    | (Returns a, self') => k a self'
    | (Raises e, self') => (Raises e, self')
    end.

#[global] Instance M_ret {S} : MRet (M S) := @ret S.
#[global] Instance M_bind {S} : MBind (M S) := fun A B k m => bind m k.

(** [self.attr] as an expression. *)
Definition getattr {S A} (attr : S -> option A) (name : string) : M S A :=
  fun self =>
    match attr self with
    | Some v => (Returns v, self)
    | None => (Raises (AttributeError name), self)
    end.

(** [self.attr = v], given the record update that stores [v]. *)
Definition setattr {S A} (store : A -> S -> S) (v : A) : M S unit :=
  fun self => (Returns tt, store v self).

(** [return self]. *)
Definition return_self {S} : M S S := fun self => (Returns self, self).

(** [x/y] on numbers. *)
Definition truediv {S} (x y : R) : M S R :=
  if Req_dec_T y 0 then raise ZeroDivisionError else ret (x / y).

(** [x/n] with [n] a Python [int]. *)
Definition truediv_int {S} (x : R) (n : Z) : M S R :=
  if (n =? 0)%Z then raise ZeroDivisionError else ret (x / IZR n).

(** ** Lists *)

(** The position a Python subscript [l[i]] designates in a list of length
    [len]: a negative [i] counts from the end, and a subscript outside
    [-len .. len-1] designates nothing. *)
Definition subscript (len : nat) (i : Z) : option nat :=
  let j := if (i <? 0)%Z then (i + Z.of_nat len)%Z else i in
  if ((0 <=? j) && (j <? Z.of_nat len))%Z then Some (Z.to_nat j) else None.

(** [l[i]] as an expression. *)
Definition getitem {S} (l : list R) (i : Z) : M S R :=
  match subscript (length l) i with
  | Some j =>
      match l !! j with
      | Some v => ret v
      | None => raise IndexError
      end
  | None => raise IndexError
  end.

(** [l[i] = v]: the list after the assignment. *)
Definition setitem {S} (l : list R) (i : Z) (v : R) : M S (list R) :=
  match subscript (length l) i with
  | Some j => ret (<[j := v]> l)
  | None => raise IndexError
  end.

(** [[0]*n]: empty when [n <= 0]. *)
Definition zeros (n : Z) : list R := replicate (Z.to_nat n) 0.

(** [[ f(x) for x in xs ]]. *)
Fixpoint list_comprehension {S} (f : R -> M S R) (xs : list R) : M S (list R) :=
  match xs with
  | [] => ret []
  | x :: xs' =>
      y ← f x;
      ys ← list_comprehension f xs';
      ret (y :: ys)
  end.

(** ** The call contract shared by the three classes *)

(** What [__call__] receives and returns: one number, or a list of
    numbers (the [collections.abc.Iterable] case). *)
Inductive pyvalue : Type :=
| PyNumber (x : R)
| PyList (xs : list R).

(** The body of [__call__], identical in the three classes:
<<
    if isinstance( input, collections.abc.Iterable ) :
        return [ self._feed( x ) for x in input ]
    else :
        return self._feed( input )
>> *)
Definition call_body {S} (_feed : R -> M S R) (input : pyvalue) : M S pyvalue :=
  match input with
  | PyList xs => ys ← list_comprehension _feed xs; ret (PyList ys)
  | PyNumber x => y ← _feed x; ret (PyNumber y)
  end.

(** [Class(args)]: a new object without attributes is handed to
    [__init__]; the caller receives it only if [__init__] returns. *)
Definition instantiate {S} (blank : S) (init : M S unit) : outcome S :=
  match init blank with
  | (Returns _, self) => Returns self
  | (Raises e, _) => Raises e
  end.

(** ** [class LP_first_order] *)

Module LP_first_order.

Record t : Type := mk {
  _Cy1 : option R;
  _Cx0 : option R;
  _Cx1 : option R;
  _y_k1 : option R;
  _x_k1 : option R
}.

Definition blank : t := mk None None None None None.

Definition set_Cy1 (v : R) (o : t) : t :=
  mk (Some v) (_Cx0 o) (_Cx1 o) (_y_k1 o) (_x_k1 o).
Definition set_Cx0 (v : R) (o : t) : t :=
  mk (_Cy1 o) (Some v) (_Cx1 o) (_y_k1 o) (_x_k1 o).
Definition set_Cx1 (v : R) (o : t) : t :=
  mk (_Cy1 o) (_Cx0 o) (Some v) (_y_k1 o) (_x_k1 o).
Definition set_y_k1 (v : R) (o : t) : t :=
  mk (_Cy1 o) (_Cx0 o) (_Cx1 o) (Some v) (_x_k1 o).
Definition set_x_k1 (v : R) (o : t) : t :=
  mk (_Cy1 o) (_Cx0 o) (_Cx1 o) (_y_k1 o) (Some v).

(** An instance with all its attributes assigned. *)
Definition instance (Cy1 Cx0 Cx1 y_k1 x_k1 : R) : t :=
  mk (Some Cy1) (Some Cx0) (Some Cx1) (Some y_k1) (Some x_k1).

Definition reset : M t unit :=
  setattr set_y_k1 0;;
  setattr set_x_k1 0.

Definition init_bilinear (Te wc : R) : M t t :=
  v ← truediv (2 - wc*Te) (2 + wc*Te);
  setattr set_Cy1 v;;
  v ← truediv (wc*Te) (2 + wc*Te);
  setattr set_Cx0 v;;
  v ← getattr _Cx0 "_Cx0";
  setattr set_Cx1 v;;
  return_self.

Definition init_homographic (Te wc : R) : M t t :=
  let twt := tan (wc*Te/2) in
  v ← truediv (1 - twt) (1 + twt);
  setattr set_Cy1 v;;
  v ← truediv twt (1 + twt);
  setattr set_Cx0 v;;
  v ← getattr _Cx0 "_Cx0";
  setattr set_Cx1 v;;
  return_self.

Definition init_step_matching (Te wc : R) : M t t :=
  let ewt := exp (-wc*Te) in
  setattr set_Cy1 ewt;;
  setattr set_Cx0 0;;
  setattr set_Cx1 (1 - ewt);;
  return_self.

Definition init_impulse_matching (Te wc : R) : M t t :=
  let ewt := exp (-wc*Te) in
  setattr set_Cy1 ewt;;
  setattr set_Cx0 (1 - ewt);;
  setattr set_Cx1 0;;
  return_self.

(** The attributes of the class whose name starts with [init_]; no
    other attribute of an instance has such a name. *)
Definition init_methods : list (string * (R -> R -> M t t)) :=
  [ ("init_bilinear", init_bilinear);
    ("init_homographic", init_homographic);
    ("init_step_matching", init_step_matching);
    ("init_impulse_matching", init_impulse_matching) ]%string.

(** [getattr( self, name )] for a name that starts with [init_]. *)
Definition getattr_init {A} (methods : list (string * A)) (name : string) : M t A :=
  match List.find (fun entry => String.eqb (fst entry) name) methods with
  | Some entry => ret (snd entry)
  | None => raise (AttributeError name)
  end.

Definition __init__ (Te wc : R) (transform : string) : M t unit :=
  reset;;
  init ← getattr_init init_methods (String.append "init_" transform);
  init Te wc;;
  ret tt.

Definition _feed (x_k0 : R) : M t R :=
  Cy1 ← getattr _Cy1 "_Cy1";
  y_k1 ← getattr _y_k1 "_y_k1";
  Cx0 ← getattr _Cx0 "_Cx0";
  Cx1 ← getattr _Cx1 "_Cx1";
  x_k1 ← getattr _x_k1 "_x_k1";
  let y_k0 := Cy1*y_k1 + Cx0*x_k0 + Cx1*x_k1 in
  setattr set_y_k1 y_k0;;
  setattr set_x_k1 x_k0;;
  ret y_k0.

Definition __call__ (input : pyvalue) : M t pyvalue := call_body _feed input.

(** The four names that [getattr] finds behind the prefix [init_]. *)
Definition supported : list string :=
  [ "bilinear"; "homographic"; "step_matching"; "impulse_matching" ]%string.

(** The coefficient attributes of an object. *)
Definition coefficients (self : t) : option R * option R * option R :=
  (_Cy1 self, _Cx0 self, _Cx1 self).

(** [LP_first_order( Te, wc, transform )]. *)
Definition new (Te wc : R) (transform : string) : outcome t :=
  instantiate blank (__init__ Te wc transform).

End LP_first_order.

(** ** [class LP_second_order] *)

Module LP_second_order.

Record t : Type := mk {
  _Cy1 : option R;
  _Cy2 : option R;
  _Cx0 : option R;
  _Cx1 : option R;
  _Cx2 : option R;
  _y_k1 : option R;
  _x_k1 : option R;
  _y_k2 : option R;
  _x_k2 : option R
}.

Definition blank : t := mk None None None None None None None None None.

Definition set_Cy1 (v : R) (o : t) : t :=
  mk (Some v) (_Cy2 o) (_Cx0 o) (_Cx1 o) (_Cx2 o) (_y_k1 o) (_x_k1 o) (_y_k2 o) (_x_k2 o).
Definition set_Cy2 (v : R) (o : t) : t :=
  mk (_Cy1 o) (Some v) (_Cx0 o) (_Cx1 o) (_Cx2 o) (_y_k1 o) (_x_k1 o) (_y_k2 o) (_x_k2 o).
Definition set_Cx0 (v : R) (o : t) : t :=
  mk (_Cy1 o) (_Cy2 o) (Some v) (_Cx1 o) (_Cx2 o) (_y_k1 o) (_x_k1 o) (_y_k2 o) (_x_k2 o).
Definition set_Cx1 (v : R) (o : t) : t :=
  mk (_Cy1 o) (_Cy2 o) (_Cx0 o) (Some v) (_Cx2 o) (_y_k1 o) (_x_k1 o) (_y_k2 o) (_x_k2 o).
Definition set_Cx2 (v : R) (o : t) : t :=
  mk (_Cy1 o) (_Cy2 o) (_Cx0 o) (_Cx1 o) (Some v) (_y_k1 o) (_x_k1 o) (_y_k2 o) (_x_k2 o).
Definition set_y_k1 (v : R) (o : t) : t :=
  mk (_Cy1 o) (_Cy2 o) (_Cx0 o) (_Cx1 o) (_Cx2 o) (Some v) (_x_k1 o) (_y_k2 o) (_x_k2 o).
Definition set_x_k1 (v : R) (o : t) : t :=
  mk (_Cy1 o) (_Cy2 o) (_Cx0 o) (_Cx1 o) (_Cx2 o) (_y_k1 o) (Some v) (_y_k2 o) (_x_k2 o).
Definition set_y_k2 (v : R) (o : t) : t :=
  mk (_Cy1 o) (_Cy2 o) (_Cx0 o) (_Cx1 o) (_Cx2 o) (_y_k1 o) (_x_k1 o) (Some v) (_x_k2 o).
Definition set_x_k2 (v : R) (o : t) : t :=
  mk (_Cy1 o) (_Cy2 o) (_Cx0 o) (_Cx1 o) (_Cx2 o) (_y_k1 o) (_x_k1 o) (_y_k2 o) (Some v).

(** An instance with all its attributes assigned. *)
Definition instance (Cy1 Cy2 Cx0 Cx1 Cx2 y_k1 x_k1 y_k2 x_k2 : R) : t :=
  mk (Some Cy1) (Some Cy2) (Some Cx0) (Some Cx1) (Some Cx2)
     (Some y_k1) (Some x_k1) (Some y_k2) (Some x_k2).

(** The class body defines [reset] twice, with the same text; the
    second definition is the one the class keeps. *)
Definition reset : M t unit :=
  setattr set_y_k1 0;;
  setattr set_x_k1 0;;
  setattr set_y_k2 0;;
  setattr set_x_k2 0.

Definition init_bilinear (Te w0 Q : R) : M t t :=
  let w2T2 := (w0*Te)^2 in
  let den := 2*w0*Te + 4*Q + Q*w2T2 in
  v ← truediv (2*Q*(4 - w2T2)) den;
  setattr set_Cy1 v;;
  v ← truediv (2*w0*Te - 4*Q - Q*w2T2) den;
  setattr set_Cy2 v;;
  v ← truediv (Q*w2T2) den;
  setattr set_Cx0 v;;
  v ← getattr _Cx0 "_Cx0";
  setattr set_Cx1 (2*v);;
  v ← getattr _Cx0 "_Cx0";
  setattr set_Cx2 v;;
  return_self.

(** The attributes of the class whose name starts with [init_]. *)
Definition init_methods : list (string * (R -> R -> R -> M t t)) :=
  [ ("init_bilinear", init_bilinear) ]%string.

Definition getattr_init {A} (methods : list (string * A)) (name : string) : M t A :=
  match List.find (fun entry => String.eqb (fst entry) name) methods with
  | Some entry => ret (snd entry)
  | None => raise (AttributeError name)
  end.

Definition __init__ (Te w0 Q : R) (transform : string) : M t unit :=
  reset;;
  init ← getattr_init init_methods (String.append "init_" transform);
  init Te w0 Q;;
  ret tt.

Definition _feed (x_k0 : R) : M t R :=
  Cy1 ← getattr _Cy1 "_Cy1";
  y_k1 ← getattr _y_k1 "_y_k1";
  Cy2 ← getattr _Cy2 "_Cy2";
  y_k2 ← getattr _y_k2 "_y_k2";
  Cx0 ← getattr _Cx0 "_Cx0";
  Cx1 ← getattr _Cx1 "_Cx1";
  x_k1 ← getattr _x_k1 "_x_k1";
  Cx2 ← getattr _Cx2 "_Cx2";
  x_k2 ← getattr _x_k2 "_x_k2";
  let y_k0 := Cy1*y_k1 + Cy2*y_k2 + Cx0*x_k0 + Cx1*x_k1 + Cx2*x_k2 in
  v ← getattr _y_k1 "_y_k1";
  setattr set_y_k2 v;;
  setattr set_y_k1 y_k0;;
  v ← getattr _x_k1 "_x_k1";
  setattr set_x_k2 v;;
  setattr set_x_k1 x_k0;;
  ret y_k0.

Definition __call__ (input : pyvalue) : M t pyvalue := call_body _feed input.

(** The coefficient attributes of an object. *)
Definition coefficients (self : t) : option R * option R * option R * option R * option R :=
  (_Cy1 self, _Cy2 self, _Cx0 self, _Cx1 self, _Cx2 self).

(** [LP_second_order( Te, w0, Q, transform )]. *)
Definition new (Te w0 Q : R) (transform : string) : outcome t :=
  instantiate blank (__init__ Te w0 Q transform).

End LP_second_order.

(** ** [class Moving_average] *)

Module Moving_average.

Record t : Type := mk {
  _N : option Z;
  _buffer : option (list R);
  _i : option Z;
  _y_k0 : option R
}.

Definition blank : t := mk None None None None.

Definition set_N (v : Z) (o : t) : t := mk (Some v) (_buffer o) (_i o) (_y_k0 o).
Definition set_buffer (v : list R) (o : t) : t := mk (_N o) (Some v) (_i o) (_y_k0 o).
Definition set_i (v : Z) (o : t) : t := mk (_N o) (_buffer o) (Some v) (_y_k0 o).
Definition set_y_k0 (v : R) (o : t) : t := mk (_N o) (_buffer o) (_i o) (Some v).

(** An instance with all its attributes assigned. *)
Definition instance (N : Z) (buffer : list R) (i : Z) (y_k0 : R) : t :=
  mk (Some N) (Some buffer) (Some i) (Some y_k0).

Definition reset : M t unit :=
  N ← getattr _N "_N";
  setattr set_buffer (zeros N);;
  setattr set_i 0%Z;;
  setattr set_y_k0 0.

Definition __init__ (N : Z) : M t unit :=
  setattr set_N N;;
  reset.

Definition _feed (x_k0 : R) : M t R :=
  (* self._y_k0 -= self._buffer[self._i] *)
  y ← getattr _y_k0 "_y_k0";
  buffer ← getattr _buffer "_buffer";
  i ← getattr _i "_i";
  b ← getitem buffer i;
  setattr set_y_k0 (y - b);;
  (* self._buffer[self._i] = x_k0/self._N *)
  N ← getattr _N "_N";
  q ← truediv_int x_k0 N;
  buffer ← getattr _buffer "_buffer";
  i ← getattr _i "_i";
  buffer' ← setitem buffer i q;
  setattr set_buffer buffer';;
  (* self._y_k0 += self._buffer[self._i] *)
  y ← getattr _y_k0 "_y_k0";
  buffer ← getattr _buffer "_buffer";
  i ← getattr _i "_i";
  b ← getitem buffer i;
  setattr set_y_k0 (y + b);;
  (* self._i += 1 *)
  i ← getattr _i "_i";
  setattr set_i (i + 1)%Z;;
  (* if self._i >= self._N : self._i = 0 *)
  i ← getattr _i "_i";
  N ← getattr _N "_N";
  (if (i >=? N)%Z then setattr set_i 0%Z else ret tt);;
  getattr _y_k0 "_y_k0".

Definition __call__ (input : pyvalue) : M t pyvalue := call_body _feed input.

(** The cursor after a feed. *)
Definition advance (N i : Z) : Z := if (i + 1 >=? N)%Z then 0%Z else (i + 1)%Z.

(** The shape every instance built with [N >= 1] keeps. *)
Definition ready (N : Z) (buffer : list R) (i : Z) : Prop :=
  (1 <= N)%Z /\ length buffer = Z.to_nat N /\ (0 <= i < N)%Z.

(** [Moving_average( N )]. *)
Definition new (N : Z) : outcome t := instantiate blank (__init__ N).

End Moving_average.

(** ** Clients of the classes *)

Definition outcome_map {A B} (f : A -> B) (r : outcome A) : outcome B :=
  match r with
  | Returns a => Returns (f a)
  | Raises e => Raises e
  end.

(** Streaming use of a filter: the samples [xs] are handed over one call
    at a time, each call with a single number, and what the calls return
    is collected in order; the first call that raises ends the stream.
    [streamed call self xs r self'] relates the object before, the
    samples, the collected outputs (or the exception) and the object
    after. *)
Inductive streamed {S} (call : pyvalue -> M S pyvalue) :
    S -> list R -> outcome (list R) -> S -> Prop :=
| streamed_done self :
    streamed call self [] (Returns []) self
| streamed_raise self x xs e self' :
    call (PyNumber x) self = (Raises e, self') ->
    streamed call self (x :: xs) (Raises e) self'
| streamed_next self x xs y self1 r self2 :
    call (PyNumber x) self = (Returns (PyNumber y), self1) ->
    streamed call self1 xs r self2 ->
    streamed call self (x :: xs) (outcome_map (cons y) r) self2.

(** A call on the whole sequence does what the stream of single calls does. *)
Definition batch_as_stream {S} (call : pyvalue -> M S pyvalue) (self : S) (xs : list R) : Prop :=
  exists r self',
    call (PyList xs) self = (outcome_map PyList r, self') /\
    streamed call self xs r self'.

(** A call on the whole sequence returns: a list of as many outputs, the
    ones the stream of single calls returns. *)
Definition batch_returns {S} (call : pyvalue -> M S pyvalue) (self : S) (xs : list R) : Prop :=
  exists ys self',
    call (PyList xs) self = (Returns (PyList ys), self') /\
    streamed call self xs (Returns ys) self' /\
    length ys = length xs.



(** [keeps P m]: when [P] holds of [self] before [m], it holds after,
    whether [m] returns or raises. *)
Definition keeps {S A} (P : S -> Prop) (m : M S A) : Prop :=
  forall self r self', P self -> m self = (r, self') -> P self'.

(** ** Windows of samples *)






(** ** Vocabulary of the moving average and of the constant input *)





(** ** Vocabulary of the further properties *)

(** Processing a sequence in two chunks: what the call on [xs ++ ys] has
    to be, given what the call on [xs] and then the call on [ys] do. *)
Definition splits_in_chunks {S} (call : pyvalue -> M S pyvalue) : Prop :=
  forall self xs ys,
    match call (PyList xs) self with
    | (Returns (PyList o1), s1) =>
        match call (PyList ys) s1 with
        | (Returns (PyList o2), s2) =>
            call (PyList (xs ++ ys)) self = (Returns (PyList (o1 ++ o2)), s2)
        | (Returns (PyNumber _), _) => False
        | (Raises e, s2) => call (PyList (xs ++ ys)) self = (Raises e, s2)
        end
    | (Returns (PyNumber _), _) => False
    | (Raises e, s1) => call (PyList (xs ++ ys)) self = (Raises e, s1)
    end.








(** * Lemmas *)

(** ** The method monad *)

Ltac run :=
  cbv [mbind M_bind bind mret M_ret ret raise setattr getattr return_self].



Lemma eqb_append_prefix (p a b : string) :
  String.eqb (String.append p a) (String.append p b) = String.eqb a b.
Proof.
  induction p as [|c p IH]; simpl; [reflexivity|].
  rewrite Ascii.eqb_refl. exact IH.
Qed.

Section Call.
Context {S : Type} (feed : R -> M S R).

Lemma call_number x self :
  call_body feed (PyNumber x) self =
  (outcome_map PyNumber (fst (feed x self)), snd (feed x self)).
Proof. unfold call_body. run. destruct (feed x self) as [[y|e] s1]; reflexivity. Qed.

Lemma comprehension_streamed xs : forall self,
  exists r self',
    list_comprehension feed xs self = (r, self') /\
    streamed (call_body feed) self xs r self'.
Proof.
  induction xs as [|x xs IH]; intros self.
  - exists (Returns []), self. split; [reflexivity|constructor].
  - simpl. run. destruct (feed x self) as [[y|e] s1] eqn:Hx.
    + destruct (IH s1) as (r & s2 & Hrun & Hst). rewrite Hrun.
      exists (outcome_map (cons y) r), s2. split.
      * destruct r; reflexivity.
      * apply streamed_next with (self1 := s1); [|exact Hst].
        rewrite call_number, Hx. reflexivity.
    + exists (Raises e), s1. split; [reflexivity|].
      apply streamed_raise. rewrite call_number, Hx. reflexivity.
Qed.

Lemma call_batch_as_stream self xs : batch_as_stream (call_body feed) self xs.
Proof.
  destruct (comprehension_streamed xs self) as (r & s' & Hrun & Hst).
  exists r, s'. split; [|exact Hst].
  unfold call_body. run. rewrite Hrun. destruct r; reflexivity.
Qed.

Lemma streamed_length self xs r self' :
  streamed (call_body feed) self xs r self' ->
  forall ys, r = Returns ys -> length ys = length xs.
Proof.
  induction 1 as [s|s x xs e s' H|s x xs y s1 r s2 H Hst IH]; intros ys Hr.
  - injection Hr as <-. reflexivity.
  - discriminate.
  - destruct r as [ys'|e]; [|discriminate]. injection Hr as <-.
    simpl. f_equal. apply IH. reflexivity.
Qed.

Lemma streamed_functional self xs r1 s1 :
  streamed (call_body feed) self xs r1 s1 ->
  forall r2 s2, streamed (call_body feed) self xs r2 s2 -> r1 = r2 /\ s1 = s2.
Proof.
  induction 1 as [s|s x xs e s' H|s x xs y sa r sb H Hst IH];
    intros r2 s2 H2; inversion H2; subst; try congruence; auto.
  - split; congruence.
  - match goal with
    | Hc : call_body feed (PyNumber x) s = (Returns (PyNumber ?y0), ?s0),
      Hs : streamed _ ?s0 xs _ _ |- _ =>
        assert (y0 = y /\ s0 = sa) as [-> ->] by (split; congruence);
        destruct (IH _ _ Hs) as [-> ->]; auto
    end.
Qed.

(** When no feed can raise from the states of an invariant set, the
    call on a sequence returns. *)
Lemma call_batch_returns (Inv : S -> Prop) :
  (forall self x, Inv self -> exists y self', feed x self = (Returns y, self') /\ Inv self') ->
  forall xs self, Inv self -> batch_returns (call_body feed) self xs.
Proof.
  intros Hfeed xs self Hinv.
  destruct (call_batch_as_stream self xs) as (r & s' & Hcall & Hst).
  assert (exists ys, r = Returns ys) as [ys ->].
  { clear Hcall. revert Hinv. induction Hst as [s|s x xs e s' H|s x xs y s1 r s2 H Hst IH]; intros Hinv.
    - eauto.
    - destruct (Hfeed s x Hinv) as (y & s1 & Hy & _).
      rewrite call_number, Hy in H. discriminate.
    - destruct (Hfeed s x Hinv) as (y' & s1' & Hy & Hinv').
      rewrite call_number, Hy in H. simpl in H.
      assert (s1' = s1) as -> by congruence.
      destruct (IH Hinv') as [ys ->]. simpl. eauto. }
  exists ys, s'. split; [exact Hcall|]. split; [exact Hst|].
  eapply streamed_length; eauto.
Qed.

End Call.

(** ** First-order filter: construction *)

Module LP_first_order_facts.
Import LP_first_order.











Lemma lp1_getattr_init_unknown transform self :
  ~ In transform supported ->
  getattr_init init_methods (String.append "init_" transform) self =
  (Raises (AttributeError (String.append "init_" transform)), self).
Proof.
  intros Hn. unfold getattr_init, init_methods. cbn [List.find fst snd].
  change "init_bilinear"%string with (String.append "init_" "bilinear").
  change "init_homographic"%string with (String.append "init_" "homographic").
  change "init_step_matching"%string with (String.append "init_" "step_matching").
  change "init_impulse_matching"%string with (String.append "init_" "impulse_matching").
  rewrite !eqb_append_prefix.
  repeat match goal with
  | |- context [String.eqb ?a transform] =>
      let E := fresh "E" in
      destruct (String.eqb_spec a transform) as [E|E];
      [exfalso; apply Hn; rewrite <- E; simpl; tauto|]
  end.
  reflexivity.
Qed.

Lemma lp1_init_unknown Te wc transform :
  ~ In transform supported ->
  __init__ Te wc transform blank =
  (Raises (AttributeError (String.append "init_" transform)),
   mk None None None (Some 0) (Some 0)).
Proof.
  intros Hn. unfold __init__, reset. run.
  rewrite lp1_getattr_init_unknown by exact Hn. reflexivity.
Qed.

Lemma lp1_feed_instance Cy1 Cx0 Cx1 y_k1 x_k1 x_k0 :
  _feed x_k0 (instance Cy1 Cx0 Cx1 y_k1 x_k1) =
  (Returns (Cy1*y_k1 + Cx0*x_k0 + Cx1*x_k1),
   instance Cy1 Cx0 Cx1 (Cy1*y_k1 + Cx0*x_k0 + Cx1*x_k1) x_k0).
Proof. reflexivity. Qed.

End LP_first_order_facts.

(** ** Second-order filter: construction *)

Module LP_second_order_facts.
Import LP_second_order.





Lemma lp2_getattr_init_unknown transform self :
  transform <> "bilinear"%string ->
  getattr_init init_methods (String.append "init_" transform) self =
  (Raises (AttributeError (String.append "init_" transform)), self).
Proof.
  intros Hn. unfold getattr_init, init_methods. cbn [List.find fst snd].
  change "init_bilinear"%string with (String.append "init_" "bilinear").
  rewrite eqb_append_prefix.
  destruct (String.eqb_spec "bilinear" transform) as [E|E]; [congruence|reflexivity].
Qed.

Lemma lp2_init_unknown Te w0 Q transform :
  transform <> "bilinear"%string ->
  __init__ Te w0 Q transform blank =
  (Raises (AttributeError (String.append "init_" transform)),
   mk None None None None None (Some 0) (Some 0) (Some 0) (Some 0)).
Proof.
  intros Hn. unfold __init__, reset. run.
  rewrite lp2_getattr_init_unknown by exact Hn. reflexivity.
Qed.

Lemma lp2_feed_instance Cy1 Cy2 Cx0 Cx1 Cx2 y_k1 x_k1 y_k2 x_k2 x_k0 :
  let y_k0 := Cy1*y_k1 + Cy2*y_k2 + Cx0*x_k0 + Cx1*x_k1 + Cx2*x_k2 in
  _feed x_k0 (instance Cy1 Cy2 Cx0 Cx1 Cx2 y_k1 x_k1 y_k2 x_k2) =
  (Returns y_k0, instance Cy1 Cy2 Cx0 Cx1 Cx2 y_k0 x_k0 y_k1 x_k1).
Proof. reflexivity. Qed.

End LP_second_order_facts.

(** ** Moving average: one feed *)

Lemma subscript_in_range (len : nat) (i : Z) :
  (0 <= i < Z.of_nat len)%Z -> subscript len i = Some (Z.to_nat i).
Proof.
  intros H. unfold subscript.
  destruct (Z.ltb_spec i 0); [lia|].
  destruct (Z.leb_spec 0 i); [|lia].
  destruct (Z.ltb_spec i (Z.of_nat len)); [reflexivity|lia].
Qed.


Lemma getitem_in_range {S} (l : list R) (i : Z) (v : R) :
  (0 <= i)%Z -> l !! Z.to_nat i = Some v -> @getitem S l i = ret v.
Proof.
  intros Hi Hv. unfold getitem.
  rewrite subscript_in_range, Hv; [reflexivity|].
  apply lookup_lt_Some in Hv. lia.
Qed.

Lemma setitem_in_range {S} (l : list R) (i : Z) (v : R) :
  (0 <= i < Z.of_nat (length l))%Z ->
  @setitem S l i v = ret (<[Z.to_nat i := v]> l).
Proof. intros Hi. unfold setitem. rewrite subscript_in_range by exact Hi. reflexivity. Qed.

Module Moving_average_facts.
Import Moving_average.

Ltac step := run; cbn [_N _buffer _i _y_k0 set_y_k0 set_buffer set_i].




Lemma ma_feed_ready N buffer i y x b :
  ready N buffer i ->
  buffer !! Z.to_nat i = Some b ->
  _feed x (instance N buffer i y) =
  (Returns (y - b + x / IZR N),
   instance N (<[Z.to_nat i := x / IZR N]> buffer) (advance N i) (y - b + x / IZR N)).
Proof.
  intros (HN & Hlen & Hi) Hb. unfold _feed, instance.
  assert (HN0 : (N =? 0)%Z = false) by (apply Z.eqb_neq; lia).
  step. rewrite (getitem_in_range _ _ _ (proj1 Hi) Hb).
  step. unfold truediv_int. rewrite HN0.
  step. rewrite setitem_in_range by lia.
  step. rewrite (getitem_in_range _ _ (x / IZR N)); [|lia|].
  2:{ apply list_lookup_insert_eq. lia. }
  step.
  unfold advance. destruct (i + 1 >=? N)%Z; reflexivity.
Qed.

Lemma ma_ready_advance N buffer i v :
  ready N buffer i -> ready N (<[Z.to_nat i := v]> buffer) (advance N i).
Proof.
  intros (HN & Hlen & Hi). unfold ready, advance.
  rewrite length_insert. destruct (Z.geb_spec (i + 1) N); lia.
Qed.

End Moving_average_facts.

(** ** Moving average: the running sum is the mean of the window *)

Section Totals.






End Totals.

Section Windows.







End Windows.

Module Moving_average_window.
Import Moving_average Moving_average_facts.






End Moving_average_window.

(** ** First-order filter: response to a constant input *)

Module LP_first_order_steady.
Import LP_first_order LP_first_order_facts.











End LP_first_order_steady.

(** ** Properties of [self] that a method keeps *)

Create HintDb frame.

Section Keeps.
Context {S : Type} (P : S -> Prop).

Lemma keeps_ret {A} (a : A) : keeps P (ret a : M S A).
Proof. intros self r self' HP [= _ <-]. exact HP. Qed.

Lemma keeps_raise {A} (e : exn) : keeps P (raise e : M S A).
Proof. intros self r self' HP [= _ <-]. exact HP. Qed.


Lemma keeps_getattr {A} (attr : S -> option A) name : keeps P (getattr attr name).
Proof.
  intros self r self' HP. unfold getattr.
  destruct (attr self); intros [= _ <-]; exact HP.
Qed.


Lemma keeps_return_self : keeps P return_self.
Proof. intros self r self' HP [= _ <-]. exact HP. Qed.

Lemma keeps_truediv x y : keeps P (truediv x y).
Proof. unfold truediv. destruct (Req_dec_T y 0); [apply keeps_raise|apply keeps_ret]. Qed.

Lemma keeps_truediv_int x n : keeps P (truediv_int x n).
Proof. unfold truediv_int. destruct (n =? 0)%Z; [apply keeps_raise|apply keeps_ret]. Qed.

Lemma keeps_getitem l i : keeps P (getitem l i).
Proof.
  unfold getitem. destruct (subscript (length l) i) as [j|]; [|apply keeps_raise].
  destruct (l !! j); [apply keeps_ret|apply keeps_raise].
Qed.

Lemma keeps_setitem l i v : keeps P (setitem l i v).
Proof.
  unfold setitem. destruct (subscript (length l) i); [apply keeps_ret|apply keeps_raise].
Qed.





End Keeps.

#[global] Hint Resolve keeps_ret keeps_raise keeps_getattr keeps_return_self
  keeps_truediv keeps_truediv_int keeps_getitem keeps_setitem : frame.


(** ** What each class keeps between calls *)

Module LP_first_order_frame.
Import LP_first_order LP_first_order_facts.





Lemma lp1_call_instance Cy1 Cx0 Cx1 y_k1 x_k1 xs :
  batch_returns __call__ (instance Cy1 Cx0 Cx1 y_k1 x_k1) xs.
Proof.
  apply (call_batch_returns _feed
           (fun self => exists y x, self = instance Cy1 Cx0 Cx1 y x)); [|eauto].
  intros self x (y1 & x1 & ->). rewrite lp1_feed_instance. eauto 6.
Qed.

End LP_first_order_frame.

Module LP_second_order_frame.
Import LP_second_order LP_second_order_facts.





Lemma lp2_call_instance Cy1 Cy2 Cx0 Cx1 Cx2 y_k1 x_k1 y_k2 x_k2 xs :
  batch_returns __call__ (instance Cy1 Cy2 Cx0 Cx1 Cx2 y_k1 x_k1 y_k2 x_k2) xs.
Proof.
  apply (call_batch_returns _feed
           (fun self => exists y1 x1 y2 x2,
              self = instance Cy1 Cy2 Cx0 Cx1 Cx2 y1 x1 y2 x2)); [|eauto 6].
  intros self x (y1 & x1 & y2 & x2 & ->). rewrite lp2_feed_instance. eauto 8.
Qed.

End LP_second_order_frame.

Module Moving_average_frame.
Import Moving_average Moving_average_facts.




Lemma ma_call_ready N buffer i y xs :
  ready N buffer i -> batch_returns __call__ (instance N buffer i y) xs.
Proof.
  intros Hready.
  apply (call_batch_returns _feed
           (fun self => exists b j z, self = instance N b j z /\ ready N b j)); [|eauto 6].
  intros self x (b & j & z & -> & Hr).
  assert (Hlt : (Z.to_nat j < length b)%nat) by (destruct Hr as (? & ? & ?); lia).
  destruct (lookup_lt_is_Some_2 b _ Hlt) as [v Hv].
  rewrite (ma_feed_ready N b j z x v Hr Hv).
  eexists _, _. split; [reflexivity|].
  eexists _, _, _. split; [reflexivity|]. apply ma_ready_advance, Hr.
Qed.


End Moving_average_frame.

(** * The stated properties *)

Local Open Scope string_scope.

(** ** Construction *)







(** C5.  A transform name that the class does not know (first order:
    none of bilinear, homographic, step_matching, impulse_matching;
    second order: not bilinear) makes construction fail: the lookup of
    [init_<name>] raises, the unsupported-transform error of the code
    being Python's [AttributeError].  This happens whatever [Te], [wc],
    [w0], [Q] are, before any coefficient is computed: the object under
    construction has no coefficient attribute, only the state attributes
    that [reset] zeroed; and the caller receives no instance. *)
Theorem unknown_transform_raises (transform : string) :
  (~ In transform LP_first_order.supported ->
   forall Te wc,
     LP_first_order.__init__ Te wc transform LP_first_order.blank =
       (Raises (AttributeError (String.append "init_" transform)),
        LP_first_order.mk None None None (Some 0) (Some 0)) /\
     LP_first_order.new Te wc transform =
       Raises (AttributeError (String.append "init_" transform))) /\
  (transform <> "bilinear" ->
   forall Te w0 Q,
     LP_second_order.__init__ Te w0 Q transform LP_second_order.blank =
       (Raises (AttributeError (String.append "init_" transform)),
        LP_second_order.mk None None None None None (Some 0) (Some 0) (Some 0) (Some 0)) /\
     LP_second_order.new Te w0 Q transform =
       Raises (AttributeError (String.append "init_" transform))).
Proof.
  split.
  - intros Hn Te wc. pose proof (LP_first_order_facts.lp1_init_unknown Te wc transform Hn) as E.
    split; [exact E|]. unfold LP_first_order.new, instantiate. rewrite E. reflexivity.
  - intros Hn Te w0 Q.
    pose proof (LP_second_order_facts.lp2_init_unknown Te w0 Q transform Hn) as E.
    split; [exact E|]. unfold LP_second_order.new, instantiate. rewrite E. reflexivity.
Qed.

Lemma unknown_transform_raises_witness :
  LP_first_order.new 1 1 "euler" = Raises (AttributeError "init_euler") /\
  LP_second_order.new 1 1 1 "homographic" = Raises (AttributeError "init_homographic").
Proof.
  split.
  - apply (proj1 (unknown_transform_raises "euler")).
    simpl. intros [H|[H|[H|[H|[]]]]]; discriminate H.
  - apply (proj2 (unknown_transform_raises "homographic")). discriminate.
Defined.




(** ** Calls *)

(** C10.  On an empty sequence a call returns the empty list and leaves
    every attribute of the object as it was, for the three classes and
    whatever the object. *)
Theorem empty_call_changes_nothing :
  (forall self, LP_first_order.__call__ (PyList []) self = (Returns (PyList []), self)) /\
  (forall self, LP_second_order.__call__ (PyList []) self = (Returns (PyList []), self)) /\
  (forall self, Moving_average.__call__ (PyList []) self = (Returns (PyList []), self)).
Proof. repeat split. Qed.

(** C4.  For the three classes and every object, a call on one number
    is one [_feed], and a call on a sequence does what the stream of
    calls on its elements, one at a time and in order, does: same
    outputs in the same order (or same exception), and same object
    afterwards.  On an instance of the two low-pass filters, and on an
    instance of the moving average with [N >= 1], a buffer of length [N]
    and a cursor in [0, N), the call returns a list as long as the
    sequence. *)
Theorem batch_call_is_streaming :
  (forall self x,
     LP_first_order.__call__ (PyNumber x) self =
       (outcome_map PyNumber (fst (LP_first_order._feed x self)),
        snd (LP_first_order._feed x self))) /\
  (forall self x,
     LP_second_order.__call__ (PyNumber x) self =
       (outcome_map PyNumber (fst (LP_second_order._feed x self)),
        snd (LP_second_order._feed x self))) /\
  (forall self x,
     Moving_average.__call__ (PyNumber x) self =
       (outcome_map PyNumber (fst (Moving_average._feed x self)),
        snd (Moving_average._feed x self))) /\
  (forall self xs, batch_as_stream LP_first_order.__call__ self xs) /\
  (forall self xs, batch_as_stream LP_second_order.__call__ self xs) /\
  (forall self xs, batch_as_stream Moving_average.__call__ self xs) /\
  (forall Cy1 Cx0 Cx1 y_k1 x_k1 xs,
     batch_returns LP_first_order.__call__
       (LP_first_order.instance Cy1 Cx0 Cx1 y_k1 x_k1) xs) /\
  (forall Cy1 Cy2 Cx0 Cx1 Cx2 y_k1 x_k1 y_k2 x_k2 xs,
     batch_returns LP_second_order.__call__
       (LP_second_order.instance Cy1 Cy2 Cx0 Cx1 Cx2 y_k1 x_k1 y_k2 x_k2) xs) /\
  (forall N buffer i y xs,
     Moving_average.ready N buffer i ->
     batch_returns Moving_average.__call__ (Moving_average.instance N buffer i y) xs).
Proof.
  split; [intros; apply call_number|].
  split; [intros; apply call_number|].
  split; [intros; apply call_number|].
  split; [intros; apply call_batch_as_stream|].
  split; [intros; apply call_batch_as_stream|].
  split; [intros; apply call_batch_as_stream|].
  split; [intros; apply LP_first_order_frame.lp1_call_instance|].
  split; [intros; apply LP_second_order_frame.lp2_call_instance|].
  intros. apply Moving_average_frame.ma_call_ready. assumption.
Qed.

Lemma batch_call_is_streaming_witness :
  batch_returns Moving_average.__call__
    (Moving_average.instance 3 (zeros 3) 0 0) [3; 6; 9; 12].
Proof.
  apply batch_call_is_streaming.
  unfold Moving_average.ready. simpl. lia.
Defined.

(** ** Reset *)



(** ** Moving average *)



(** C9.  [Moving_average( 3 )] called on [[3, 6, 9, 12]] returns
    [[1, 3, 6, 9]]; the buffer is then [[4, 2, 3]], the cursor [1] and
    the running sum [9]. *)
Theorem moving_average_scenario :
  Moving_average.new 3 = Returns (Moving_average.instance 3 [0; 0; 0] 0 0) /\
  Moving_average.__call__ (PyList [3; 6; 9; 12]) (Moving_average.instance 3 [0; 0; 0] 0 0) =
    (Returns (PyList [1; 3; 6; 9]), Moving_average.instance 3 [4; 2; 3] 1 9).
Proof.
  split; [reflexivity|].
  cbv -[Rplus Rminus Rdiv Rmult IZR].
  repeat f_equal; lra.
Qed.

(** ** Constant input *)





(** * Further properties of the code *)

Local Close Scope string_scope.

(** ** Sequences in chunks *)

Section Chunks.
Context {S : Type} (feed : R -> M S R).

Lemma comprehension_app xs ys : forall self,
  list_comprehension feed (xs ++ ys) self =
  match list_comprehension feed xs self with
  | (Returns o1, s1) =>
      match list_comprehension feed ys s1 with
      | (Returns o2, s2) => (Returns (o1 ++ o2), s2)
      | (Raises e, s2) => (Raises e, s2)
      end
  | (Raises e, s1) => (Raises e, s1)
  end.
Proof.
  induction xs as [|x xs IH]; intros self.
  - cbn [app list_comprehension]. run.
    destruct (list_comprehension feed ys self) as [[o2|e] s2]; reflexivity.
  - cbn [app list_comprehension]. run.
    destruct (feed x self) as [[y|e] s1]; [|reflexivity].
    rewrite IH.
    destruct (list_comprehension feed xs s1) as [[o1|e] s2]; [|reflexivity].
    destruct (list_comprehension feed ys s2) as [[o2|e] s3]; reflexivity.
Qed.

Lemma call_splits : splits_in_chunks (call_body feed).
Proof.
  intros self xs ys. unfold call_body. run.
  rewrite comprehension_app.
  destruct (list_comprehension feed xs self) as [[o1|e] s1]; [|reflexivity].
  destruct (list_comprehension feed ys s1) as [[o2|e] s2]; reflexivity.
Qed.

End Chunks.

(** X1.  A sequence can be processed in chunks: for the three classes
    and every object, the call on [xs ++ ys] returns the outputs of the
    call on [xs] followed by those of the call on [ys] made next, and
    leaves the same object; if one of the two calls raises, the call on
    [xs ++ ys] raises the same exception and leaves the object as that
    call left it. *)
Theorem call_in_chunks :
  splits_in_chunks LP_first_order.__call__ /\
  splits_in_chunks LP_second_order.__call__ /\
  splits_in_chunks Moving_average.__call__.
Proof. repeat split; apply call_splits. Qed.

(** ** Moving average: what every instance keeps *)







(** ** Moving average: constant input, window of one, range *)

















(** ** Low-pass filters: calls on instances *)

Lemma lp1_comprehension_instance Cy1 Cx0 Cx1 xs : forall y_k1 x_k1,
  exists outs y x,
    list_comprehension LP_first_order._feed xs
      (LP_first_order.instance Cy1 Cx0 Cx1 y_k1 x_k1) =
    (Returns outs, LP_first_order.instance Cy1 Cx0 Cx1 y x) /\
    length outs = length xs.
Proof.
  induction xs as [|u xs IH]; intros y_k1 x_k1.
  - exists [], y_k1, x_k1. split; reflexivity.
  - cbn [list_comprehension]. run.
    rewrite LP_first_order_facts.lp1_feed_instance.
    destruct (IH (Cy1*y_k1 + Cx0*u + Cx1*x_k1) u) as (outs & y & x & -> & Hlen).
    eexists _, _, _. split; [reflexivity|]. simpl. f_equal. exact Hlen.
Qed.

Lemma lp2_comprehension_instance Cy1 Cy2 Cx0 Cx1 Cx2 xs : forall y_k1 x_k1 y_k2 x_k2,
  exists outs y1 x1 y2 x2,
    list_comprehension LP_second_order._feed xs
      (LP_second_order.instance Cy1 Cy2 Cx0 Cx1 Cx2 y_k1 x_k1 y_k2 x_k2) =
    (Returns outs, LP_second_order.instance Cy1 Cy2 Cx0 Cx1 Cx2 y1 x1 y2 x2) /\
    length outs = length xs.
Proof.
  induction xs as [|u xs IH]; intros y_k1 x_k1 y_k2 x_k2.
  - exists [], y_k1, x_k1, y_k2, x_k2. split; reflexivity.
  - cbn [list_comprehension]. run.
    rewrite LP_second_order_facts.lp2_feed_instance. cbv zeta.
    destruct (IH (Cy1*y_k1 + Cy2*y_k2 + Cx0*u + Cx1*x_k1 + Cx2*x_k2) u y_k1 x_k1)
      as (outs & y1 & x1 & y2 & x2 & -> & Hlen).
    eexists _, _, _, _, _. split; [reflexivity|]. simpl. f_equal. exact Hlen.
Qed.

Lemma call_of_comprehension {S} (feed : R -> M S R) xs self outs self' :
  list_comprehension feed xs self = (Returns outs, self') ->
  call_body feed (PyList xs) self = (Returns (PyList outs), self').
Proof. intros H. unfold call_body. run. rewrite H. reflexivity. Qed.

(** ** Low-pass filters: the state is the most recent samples *)

(** X6.  After a call, the state of a low-pass filter is made of the
    most recent samples and outputs: on an instance of the first-order
    filter a call on a sequence ending with [u] leaves [_x_k1 = u] and
    [_y_k1] equal to the last output; on an instance of the second-order
    filter a call on a sequence ending with [u, v] leaves [_x_k1 = v],
    [_x_k2 = u], and [_y_k1], [_y_k2] equal to the last and the last but
    one output.  The coefficients are untouched. *)
Theorem state_is_recent_samples :
  (forall Cy1 Cx0 Cx1 y_k1 x_k1 xs u,
     exists outs yu,
       LP_first_order.__call__ (PyList (xs ++ [u]))
         (LP_first_order.instance Cy1 Cx0 Cx1 y_k1 x_k1) =
       (Returns (PyList (outs ++ [yu])), LP_first_order.instance Cy1 Cx0 Cx1 yu u)) /\
  (forall Cy1 Cy2 Cx0 Cx1 Cx2 y_k1 x_k1 y_k2 x_k2 xs u v,
     exists outs yu yv,
       LP_second_order.__call__ (PyList (xs ++ [u; v]))
         (LP_second_order.instance Cy1 Cy2 Cx0 Cx1 Cx2 y_k1 x_k1 y_k2 x_k2) =
       (Returns (PyList (outs ++ [yu; yv])),
        LP_second_order.instance Cy1 Cy2 Cx0 Cx1 Cx2 yv v yu u)).
Proof.
  split.
  - intros Cy1 Cx0 Cx1 y_k1 x_k1 xs u.
    destruct (lp1_comprehension_instance Cy1 Cx0 Cx1 xs y_k1 x_k1)
      as (outs & y & x & Hxs & _).
    eexists outs, _. apply call_of_comprehension.
    rewrite comprehension_app, Hxs. reflexivity.
  - intros Cy1 Cy2 Cx0 Cx1 Cx2 y_k1 x_k1 y_k2 x_k2 xs u v.
    destruct (lp2_comprehension_instance Cy1 Cy2 Cx0 Cx1 Cx2 xs y_k1 x_k1 y_k2 x_k2)
      as (outs & y1 & x1 & y2 & x2 & Hxs & _).
    eexists outs, _, _. apply call_of_comprehension.
    rewrite comprehension_app, Hxs. reflexivity.
Qed.

(** ** Low-pass filters: superposition *)




(** ** Low-pass filters: the rest level *)









(** ** First-order filter: no overshoot *)










(** ** Second-order filter: response to a constant input *)



Section SecondOrder.
Variables (a b : R) (e : nat -> R).
Hypothesis Hrec : forall n, e (S (S n)) = a * e (S n) + b * e n.
Hypothesis Hb : Rabs b < 1.
Hypothesis Ha : Rabs a < 1 - b.




End SecondOrder.









(** ** First-order filter: the homographic transform past half the sampling rate *)




